(** * Stimulus catalog of the SER experiment ([stimuli_list.js])

    The script declares three literal collections and fills a fourth one by
    four nested [forEach] loops that [push] a template-literal filename onto
    an array.  The literals are transcribed as they stand; the loops are
    modelled by explicit state passing, the state being the array that the
    innermost callback mutates. *)

From Stdlib Require Import List String Ascii Arith Bool Lia.
Import ListNotations.
Open Scope string_scope.

(** ** JavaScript array primitives used by the script *)

(** [arr.push(x)]: the array grows by one element at its end. *)
Definition push {A : Type} (arr : list A) (x : A) : list A := arr ++ [x].

(** [arr.forEach(callback)]: the callback runs on the elements from index 0
    upwards; what it does to the enclosing state is threaded through. *)
Definition forEach {A S : Type} (arr : list A) (callback : A -> S -> S) (s : S) : S :=
  fold_left (fun acc x => callback x acc) arr s.

(** ** Stage 1: discrimination pairs *)

Module Pair.
Record entry : Set := mk { t : string; a : string; b : string }.
End Pair.

Definition PAIRS_DISCRIMINATION : list Pair.entry :=
  [ Pair.mk "sad" "sad_F137.wav" "fear_F137.wav";
    Pair.mk "sad" "sad_M137.wav" "fear_M137.wav";
    Pair.mk "amu" "amu_F545.wav" "rel_F545.wav";
    Pair.mk "amu" "amu_M545.wav" "rel_M545.wav" ].

(** ** Stage 2: dry versus reverberant targets *)

Module Target.
Record entry : Set := mk { emo : string; sex : string; utt : string }.
End Target.

Definition TARGETS_DRY_RVB : list Target.entry :=
  [ Target.mk "sad"  "F" "137";
    Target.mk "sad"  "M" "137";
    Target.mk "fear" "F" "137";
    Target.mk "fear" "M" "137";
    Target.mk "amu"  "F" "545";
    Target.mk "amu"  "M" "545";
    Target.mk "rel"  "F" "545";
    Target.mk "rel"  "M" "545" ].

(** ** Stage 3: practice files *)

Definition FILES_PRACTICE_5AFC : list string :=
  [ "amu_F137.wav"; "amu_M137.wav";
    "ang_F137.wav"; "ang_M137.wav";
    "sad_F137.wav"; "sad_M137.wav";
    "fear_F137.wav"; "fear_M137.wav";
    "surp_F137.wav"; "surp_M137.wav" ].

(** ** Stage 4: generated test files *)

Definition emotions : list string := ["amu"; "ang"; "sad"; "fear"; "surp"].
Definition sexes : list string := ["F"; "M"].
Definition utterances : list string := ["820"; "545"].
Definition conditions : list string := [""; "_rvb1"; "_rvb2"].

(** The template literal [`${emo}_${sex}${utt}${cond}.wav`]. *)
Definition filename (emo sex utt cond : string) : string :=
  emo ++ "_" ++ sex ++ utt ++ cond ++ ".wav".

(** The four nested loops, run on an array [FILES] that already holds what
    earlier pushes left in it. *)
Definition generate (emos sxs utts conds : list string) (FILES : list string)
  : list string :=
  forEach emos (fun emo =>
    forEach sxs (fun sex =>
      forEach utts (fun utt =>
        forEach conds (fun cond FILES' =>
          push FILES' (filename emo sex utt cond))))) FILES.

(** [const FILES_TEST_5AFC = []] followed by the loops: the array as the
    script leaves it once it has run. *)
Definition FILES_TEST_5AFC : list string :=
  let FILES := @nil string in
  generate emotions sexes utterances conditions FILES.

(** The same enumeration written as a comprehension, against which the
    loops are compared. *)
Definition product_filenames (emos sxs utts conds : list string) : list string :=
  flat_map (fun emo =>
    flat_map (fun sex =>
      flat_map (fun utt =>
        map (fun cond => filename emo sex utt cond) conds) utts) sxs) emos.

(** ** The filename convention

    [{emotion}_{sex}{utteranceId}[_{reverbSuffix}].wav].  The script only
    ever builds such names; to speak of the emotion, sex and utterance id
    that a literal name encodes, the convention is given both as a
    predicate and as a reader that takes a name apart again. *)

Definition EMOTION_LABELS : list string := ["amu"; "ang"; "sad"; "fear"; "surp"; "rel"].
Definition SEX_LABELS : list string := ["F"; "M"].
Definition REVERB_SUFFIXES : list string := ["rvb"; "rvb1"; "rvb2"].

Record parts : Set := mkParts {
  emotion : string;
  speaker : string;
  utterance : string;
  reverb : option string
}.

Definition is_digit (c : ascii) : bool :=
  (48 <=? nat_of_ascii c)%nat && (nat_of_ascii c <=? 57)%nat.

Fixpoint all_digits (s : string) : bool :=
  match s with
  | EmptyString => true
  | String c rest => is_digit c && all_digits rest
  end.

Definition numeric (u : string) : Prop := u <> "" /\ all_digits u = true.

(** The condition string the template is given for a reverb suffix. *)
Definition cond_of (r : option string) : string :=
  match r with
  | None => ""
  | Some suffix => "_" ++ suffix
  end.

Definition render (p : parts) : string :=
  filename (emotion p) (speaker p) (utterance p) (cond_of (reverb p)).

Definition well_formed (p : parts) : Prop :=
  In (emotion p) EMOTION_LABELS /\
  In (speaker p) SEX_LABELS /\
  numeric (utterance p) /\
  match reverb p with
  | None => True
  | Some suffix => In suffix REVERB_SUFFIXES
  end.


(** Everything before the first underscore, and everything after it. *)
Fixpoint split_at_underscore (s : string) : option (string * string) :=
  match s with
  | EmptyString => None
  | String c rest =>
      if Ascii.eqb c "_"%char then Some ("", rest)
      else match split_at_underscore rest with
           | Some (h, tl) => Some (String c h, tl)
           | None => None
           end
  end.

(** The longest prefix of digits, and what follows it. *)
Fixpoint span_digits (s : string) : string * string :=
  match s with
  | EmptyString => ("", "")
  | String c rest =>
      if is_digit c
      then let (d, r) := span_digits rest in (String c d, r)
      else ("", s)
  end.

Definition mem (x : string) (l : list string) : bool :=
  existsb (String.eqb x) l.

Definition reverb_of_tail (tail : string) : option (option string) :=
  if tail =? ".wav" then Some None
  else match find (fun r => tail =? cond_of (Some r) ++ ".wav") REVERB_SUFFIXES with
       | Some r => Some (Some r)
       | None => None
       end.

Definition parse (f : string) : option parts :=
  match split_at_underscore f with
  | Some (e, String x rest) =>
      let (u, tail) := span_digits rest in
      match reverb_of_tail tail with
      | Some r =>
          if mem e EMOTION_LABELS && mem (String x "") SEX_LABELS
             && negb (u =? "")
          then Some (mkParts e (String x "") u r)
          else None
      | None => None
      end
  | _ => None
  end.

(** The utterance id of a name as the reader finds it. *)
Definition utterance_of (f : string) : option string := option_map utterance (parse f).

(** ** Derived collections the properties speak of *)

(** Modelled from the spec: the script holds the stage-2 targets as
    (emo, sex, utt) records and leaves building their file names to the
    experiment runner, which is not part of this file.  The base name of
    a target is [{emotion}_{sex}{utteranceId}.wav], that is the script's
    own template with the empty (dry) condition. *)
Definition base_filename (e : Target.entry) : string :=
  filename (Target.emo e) (Target.sex e) (Target.utt e) "".

Definition BASES_DRY_RVB : list string := map base_filename TARGETS_DRY_RVB.

Definition PAIR_FILES : list string :=
  flat_map (fun p => [Pair.a p; Pair.b p]) PAIRS_DISCRIMINATION.


Definition reverb_conditions : list (option string) := [None; Some "rvb1"; Some "rvb2"].

Definition same_elements {A : Type} (l1 l2 : list A) : Prop :=
  forall x, In x l1 <-> In x l2.

(** What one discrimination pair promises about the two names it holds:
    both read under the convention, with the same speaker sex and utterance
    id, the target emotion being the one of [a] and the foil's another. *)
Definition pair_consistent (p : Pair.entry) : Prop :=
  exists pa pb : parts,
    parse (Pair.a p) = Some pa /\ parse (Pair.b p) = Some pb /\
    speaker pa = speaker pb /\
    utterance pa = utterance pb /\
    Pair.t p = emotion pa /\
    emotion pb <> emotion pa.

(** Does the name [f] encode emotion [emo]; emotion [emo] and sex [x]? *)
Definition has_emotion (emo f : string) : bool :=
  match parse f with
  | Some p => emotion p =? emo
  | None => false
  end.

Definition reads_as (emo x f : string) : bool :=
  match parse f with
  | Some p => (emotion p =? emo) && (speaker p =? x)
  | None => false
  end.

(** The (emotion, sex) pair of a stage-2 target. *)
Definition target_key (e : Target.entry) : string * string :=
  (Target.emo e, Target.sex e).

(** ** Input lists the loops may be given

    The script invites editing its input lists (the utterance ids above
    all).  These predicates say when four lists stay within the
    vocabulary of the filename convention. *)

Definition valid_reverb (r : option string) : Prop :=
  match r with
  | None => True
  | Some suffix => In suffix REVERB_SUFFIXES
  end.

(** A condition string as the template expects it: empty, or an
    underscore and a reverb suffix. *)
Definition condition_ok (c : string) : Prop :=
  exists r : option string, valid_reverb r /\ c = cond_of r.

Definition inputs_ok (emos sxs utts conds : list string) : Prop :=
  incl emos EMOTION_LABELS /\
  incl sxs SEX_LABELS /\
  Forall numeric utts /\
  Forall condition_ok conds.

(** * Properties *)

Open Scope list_scope.

(** ** The loops against the comprehension *)

Section Loops.
Context {A : Type}.

(** A callback that only appends to the array makes [forEach] append
    the appended pieces in order. *)
Lemma forEach_appends (h : A -> list string) (g : A -> list string -> list string) :
  (forall x acc, g x acc = acc ++ h x) ->
  forall l acc, forEach l g acc = acc ++ flat_map h l.
Proof.
  intros Hg l; unfold forEach.
  induction l as [|x l IH]; intros acc; simpl.
  - now rewrite app_nil_r.
  - rewrite IH, Hg, <- app_assoc. reflexivity.
Qed.

Lemma forEach_push (f : A -> string) :
  forall l acc, forEach l (fun x acc' => push acc' (f x)) acc = acc ++ map f l.
Proof.
  intros l acc.
  rewrite (forEach_appends (fun x => [f x])) by reflexivity.
  rewrite flat_map_concat_map. f_equal.
  induction l as [|x l IH]; simpl; congruence.
Qed.
End Loops.

Lemma generate_appends (emos sxs utts conds FILES : list string) :
  generate emos sxs utts conds FILES
  = FILES ++ product_filenames emos sxs utts conds.
Proof.
  unfold generate, product_filenames.
  apply forEach_appends; intros emo acc.
  apply forEach_appends; intros sex acc1.
  apply forEach_appends; intros utt acc2.
  apply forEach_push.
Qed.

Lemma FILES_TEST_5AFC_product :
  FILES_TEST_5AFC = product_filenames emotions sexes utterances conditions.
Proof. unfold FILES_TEST_5AFC. now rewrite generate_appends. Qed.

(** ** Indexing a flattened list of equally long blocks *)

Section Blocks.
Context {A B : Type}.
Variable f : A -> list B.
Variable k : nat.
Hypothesis block : forall x, List.length (f x) = k.

Lemma length_flat_map_blocks (l : list A) :
  List.length (flat_map f l) = List.length l * k.
Proof.
  induction l as [|x l IH]; simpl; [reflexivity|].
  now rewrite length_app, block, IH.
Qed.

Lemma nth_error_flat_map_blocks (l : list A) :
  forall i j x y,
    nth_error l i = Some x ->
    nth_error (f x) j = Some y ->
    nth_error (flat_map f l) (i * k + j) = Some y.
Proof.
  induction l as [|x0 l IH]; intros i j x y Hi Hj.
  - destruct i; discriminate.
  - destruct i as [|i]; simpl in *.
    + injection Hi as ->.
      rewrite nth_error_app1; [assumption|].
      apply nth_error_Some. congruence.
    + rewrite nth_error_app2 by (rewrite block; lia).
      rewrite block.
      replace (k + i * k + j - k) with (i * k + j) by lia.
      eauto.
Qed.
End Blocks.

Lemma length_product_filenames (emos sxs utts conds : list string) :
  List.length (product_filenames emos sxs utts conds)
  = List.length emos * List.length sxs * List.length utts * List.length conds.
Proof.
  unfold product_filenames.
  rewrite (length_flat_map_blocks _ (List.length sxs * List.length utts * List.length conds)); [lia|].
  intros emo.
  rewrite (length_flat_map_blocks _ (List.length utts * List.length conds)); [lia|].
  intros sex.
  rewrite (length_flat_map_blocks _ (List.length conds)); [lia|].
  intros utt. apply length_map.
Qed.

Lemma nth_error_product_filenames (emos sxs utts conds : list string) :
  forall e s u c emo sex utt cond,
    nth_error emos e = Some emo ->
    nth_error sxs s = Some sex ->
    nth_error utts u = Some utt ->
    nth_error conds c = Some cond ->
    nth_error (product_filenames emos sxs utts conds)
      (((e * List.length sxs + s) * List.length utts + u) * List.length conds + c)
    = Some (filename emo sex utt cond).
Proof.
  intros e s u c emo sex utt cond He Hs Hu Hc.
  unfold product_filenames.
  replace (((e * List.length sxs + s) * List.length utts + u) * List.length conds + c)
    with (e * (List.length sxs * List.length utts * List.length conds)
          + (s * (List.length utts * List.length conds) + (u * List.length conds + c))) by lia.
  eapply nth_error_flat_map_blocks; [|exact He|].
  { intros x.
    rewrite (length_flat_map_blocks _ (List.length utts * List.length conds)); [lia|].
    intros y. rewrite (length_flat_map_blocks _ (List.length conds)); [lia|].
    intros z. apply length_map. }
  eapply nth_error_flat_map_blocks; [|exact Hs|].
  { intros y. rewrite (length_flat_map_blocks _ (List.length conds)); [lia|].
    intros z. apply length_map. }
  eapply nth_error_flat_map_blocks; [|exact Hu|].
  { intros z. apply length_map. }
  now apply map_nth_error.
Qed.

(** ** The reader agrees with the convention *)

Lemma mem_In (x : string) (l : list string) : mem x l = true <-> In x l.
Proof.
  unfold mem. rewrite existsb_exists. split.
  - intros (y & Hy & E). apply String.eqb_eq in E. now subst.
  - intros H. exists x. split; [assumption | apply String.eqb_refl].
Qed.


Lemma split_at_underscore_label (e rest : string) :
  In e EMOTION_LABELS ->
  split_at_underscore (e ++ "_" ++ rest)%string = Some (e, rest).
Proof.
  intros H. repeat (destruct H as [<-|H]; [reflexivity|]). destruct H.
Qed.


Lemma span_digits_complete (u : string) (c : ascii) (rest : string) :
  all_digits u = true -> is_digit c = false ->
  span_digits (u ++ String c rest)%string = (u, String c rest).
Proof.
  intros Hu Hc. induction u as [|d u IH]; simpl in *.
  - now rewrite Hc.
  - apply andb_prop in Hu as [Hd Hu]. now rewrite Hd, IH.
Qed.


Lemma reverb_of_tail_complete (r : option string) :
  match r with None => True | Some suffix => In suffix REVERB_SUFFIXES end ->
  reverb_of_tail (cond_of r ++ ".wav")%string = Some r.
Proof.
  destruct r as [suffix|]; [|reflexivity].
  intros H. repeat (destruct H as [<-|H]; [reflexivity|]). destruct H.
Qed.

Lemma tail_starts_without_digit (r : option string) :
  exists c rest, (cond_of r ++ ".wav")%string = String c rest /\ is_digit c = false.
Proof. destruct r; simpl; eauto. Qed.


Theorem parse_complete (p : parts) :
  well_formed p -> parse (render p) = Some p.
Proof.
  destruct p as [e x u r]. unfold well_formed, render, numeric.
  cbn [emotion speaker utterance reverb].
  intros (He & Hx & (Hne & Hd) & Hr).
  unfold parse, filename.
  rewrite (split_at_underscore_label _ _ He).
  assert (exists c, x = String c "") as [c ->]
    by (unfold SEX_LABELS in Hx; simpl in Hx; intuition eauto).
  simpl append at 1.
  destruct (tail_starts_without_digit r) as (c' & rest & E & Hc').
  rewrite E, (span_digits_complete _ _ _ Hd Hc'), <- E.
  rewrite (reverb_of_tail_complete _ Hr).
  apply mem_In in He, Hx. rewrite He, Hx.
  destruct (String.eqb_spec u "") as [|_]; [contradiction | reflexivity].
Qed.

(** ** Stage 4: contents, order and ends of the generated list *)

Lemma In_product_filenames (emos sxs utts conds : list string) (f : string) :
  In f (product_filenames emos sxs utts conds) <->
  exists emo sex utt cond,
    In emo emos /\ In sex sxs /\ In utt utts /\ In cond conds /\
    f = filename emo sex utt cond.
Proof.
  unfold product_filenames. split.
  - intros H.
    apply in_flat_map in H as (emo & He & H).
    apply in_flat_map in H as (sex & Hs & H).
    apply in_flat_map in H as (utt & Hu & H).
    apply in_map_iff in H as (cond & <- & Hc).
    now exists emo, sex, utt, cond.
  - intros (emo & sex & utt & cond & He & Hs & Hu & Hc & ->).
    apply in_flat_map; exists emo; split; [assumption|].
    apply in_flat_map; exists sex; split; [assumption|].
    apply in_flat_map; exists utt; split; [assumption|].
    now apply in_map.
Qed.

Lemma NoDup_FILES_TEST_5AFC : NoDup FILES_TEST_5AFC.
Proof.
  assert (E : nodup string_dec FILES_TEST_5AFC = FILES_TEST_5AFC)
    by (vm_compute; reflexivity).
  rewrite <- E. apply NoDup_nodup.
Qed.

Lemma length_FILES_TEST_5AFC : List.length FILES_TEST_5AFC = 60.
Proof. rewrite FILES_TEST_5AFC_product, length_product_filenames. reflexivity. Qed.

(** C1. The generated test list has exactly 60 names, no name twice; each
    tuple of the product emotions x sexes x utterances x conditions has its
    name in the list exactly once, and the list holds nothing else. *)
Theorem test_files_cover_product :
  List.length FILES_TEST_5AFC = 60 /\
  NoDup FILES_TEST_5AFC /\
  (forall emo sex utt cond,
      In emo ["amu"; "ang"; "sad"; "fear"; "surp"] ->
      In sex ["F"; "M"] ->
      In utt ["820"; "545"] ->
      In cond [""; "_rvb1"; "_rvb2"] ->
      count_occ string_dec FILES_TEST_5AFC (filename emo sex utt cond) = 1) /\
  (forall f, In f FILES_TEST_5AFC ->
      exists emo sex utt cond,
        In emo ["amu"; "ang"; "sad"; "fear"; "surp"] /\
        In sex ["F"; "M"] /\
        In utt ["820"; "545"] /\
        In cond [""; "_rvb1"; "_rvb2"] /\
        f = filename emo sex utt cond).
Proof.
  split; [exact length_FILES_TEST_5AFC|].
  split; [exact NoDup_FILES_TEST_5AFC|].
  split.
  - intros emo sex utt cond He Hs Hu Hc.
    apply (proj1 (NoDup_count_occ' string_dec _) NoDup_FILES_TEST_5AFC).
    rewrite FILES_TEST_5AFC_product.
    apply In_product_filenames. now exists emo, sex, utt, cond.
  - intros f Hf. rewrite FILES_TEST_5AFC_product in Hf.
    now apply In_product_filenames in Hf.
Qed.

Lemma test_files_cover_product_witness :
  count_occ string_dec FILES_TEST_5AFC (filename "fear" "M" "820" "_rvb2") = 1.
Proof.
  apply (proj1 (proj2 (proj2 test_files_cover_product))); simpl; tauto.
Defined.

(** The index law on the script's own four lists, the name being the
    template's. *)
Lemma nth_error_FILES_TEST_5AFC (e s u c : nat) (emo sex utt cond : string) :
  nth_error emotions e = Some emo ->
  nth_error sexes s = Some sex ->
  nth_error utterances u = Some utt ->
  nth_error conditions c = Some cond ->
  nth_error FILES_TEST_5AFC (((e * 2 + s) * 2 + u) * 3 + c)
  = Some (filename emo sex utt cond).
Proof.
  intros He Hs Hu Hc. rewrite FILES_TEST_5AFC_product.
  exact (nth_error_product_filenames emotions sexes utterances conditions
           e s u c emo sex utt cond He Hs Hu Hc).
Qed.

(** C2. With emotion index [e] into [amu, ang, sad, fear, surp], sex
    index [s] into [F, M], utterance index [u] into [820, 545] and
    condition index [c] into the suffixes of dry, rvb1, rvb2, the element
    at index [((e*2 + s)*2 + u)*3 + c] of the generated list is the
    string emotion, underscore, sex, utterance id, condition suffix,
    [.wav]: emotion is the outermost loop, condition the innermost. *)
Theorem test_files_nested_order (e s u c : nat) (emo sex utt cond : string) :
  nth_error ["amu"; "ang"; "sad"; "fear"; "surp"] e = Some emo ->
  nth_error ["F"; "M"] s = Some sex ->
  nth_error ["820"; "545"] u = Some utt ->
  nth_error [""; "_rvb1"; "_rvb2"] c = Some cond ->
  nth_error FILES_TEST_5AFC (((e * 2 + s) * 2 + u) * 3 + c)
  = Some (emo ++ "_" ++ sex ++ utt ++ cond ++ ".wav")%string.
Proof. exact (nth_error_FILES_TEST_5AFC e s u c emo sex utt cond). Qed.

Lemma test_files_nested_order_witness :
  nth_error FILES_TEST_5AFC 31 = Some "sad_M820_rvb1.wav".
Proof.
  exact (test_files_nested_order 2 1 0 1 "sad" "M" "820" "_rvb1"
           eq_refl eq_refl eq_refl eq_refl).
Defined.

(** C3. The generated list starts with [amu_F820.wav] and its 60th, last
    element is [surp_M545_rvb2.wav]. *)
Theorem test_files_first_and_last :
  hd_error FILES_TEST_5AFC = Some "amu_F820.wav" /\
  nth_error FILES_TEST_5AFC 59 = Some "surp_M545_rvb2.wav" /\
  last FILES_TEST_5AFC "" = "surp_M545_rvb2.wav".
Proof. repeat split. Qed.

(** ** Stages 1 to 3: the literal collections *)

(** C4. There are exactly 4 discrimination pairs; in each, [a] and [b]
    encode the same speaker sex and the same utterance id, the target [t]
    is the emotion encoded in [a], and [b] encodes another emotion. *)
Theorem discrimination_pairs_consistent :
  List.length PAIRS_DISCRIMINATION = 4 /\
  Forall pair_consistent PAIRS_DISCRIMINATION.
Proof.
  split; [reflexivity|].
  repeat constructor;
    (eexists; eexists;
     split; [vm_compute; reflexivity|];
     split; [vm_compute; reflexivity|];
     repeat split; discriminate).
Qed.

(** C5. There are exactly 8 dry-versus-reverb targets; their (emotion,
    sex) pairs are those of [sad, fear, amu, rel] x [F, M] and no others;
    utterance id 137 goes with sad and fear, 545 with amu and rel. *)
Theorem dry_reverb_targets_shape :
  List.length TARGETS_DRY_RVB = 8 /\
  same_elements (map target_key TARGETS_DRY_RVB)
                (list_prod ["sad"; "fear"; "amu"; "rel"] ["F"; "M"]) /\
  Forall (fun e =>
            (In (Target.emo e) ["sad"; "fear"] /\ Target.utt e = "137") \/
            (In (Target.emo e) ["amu"; "rel"] /\ Target.utt e = "545"))
         TARGETS_DRY_RVB.
Proof.
  split; [reflexivity|]. split.
  - intros [emo sex]. simpl. tauto.
  - repeat constructor; simpl; tauto.
Qed.

(** C6. There are exactly 10 practice names; every one reads under the
    convention with an emotion among amu, ang, sad, fear, surp and with
    utterance id 137; each of the five emotions is encoded by exactly two
    names, one of sex F and one of sex M. *)
Theorem practice_files_shape :
  List.length FILES_PRACTICE_5AFC = 10 /\
  Forall (fun f => exists p : parts,
            parse f = Some p /\
            In (emotion p) ["amu"; "ang"; "sad"; "fear"; "surp"] /\
            utterance p = "137")
         FILES_PRACTICE_5AFC /\
  Forall (fun emo =>
            List.length (filter (has_emotion emo) FILES_PRACTICE_5AFC) = 2 /\
            List.length (filter (reads_as emo "F") FILES_PRACTICE_5AFC) = 1 /\
            List.length (filter (reads_as emo "M") FILES_PRACTICE_5AFC) = 1)
         ["amu"; "ang"; "sad"; "fear"; "surp"].
Proof.
  split; [reflexivity|]. split.
  - repeat constructor;
      (eexists; split; [vm_compute; reflexivity|]; split; [simpl; tauto | reflexivity]).
  - repeat constructor; vm_compute; reflexivity.
Qed.

(** ** Re-running the generation *)




(** ** Every name follows the convention *)


Lemma condition_is_reverb (cond : string) :
  In cond conditions -> exists r, In r reverb_conditions /\ cond = cond_of r.
Proof.
  intros [<-|[<-|[<-|[]]]];
    [exists None | exists (Some "rvb1") | exists (Some "rvb2")];
    simpl; tauto.
Qed.

Lemma numeric_utterances (utt : string) : In utt utterances -> numeric utt.
Proof. intros [<-|[<-|[]]]; split; (discriminate || reflexivity). Qed.

(** A generated name is read back as the four values it was built from. *)
Lemma test_file_reads (f : string) :
  In f FILES_TEST_5AFC ->
  exists p : parts,
    parse f = Some p /\
    In (emotion p) emotions /\ In (speaker p) sexes /\
    In (utterance p) utterances /\ In (reverb p) reverb_conditions.
Proof.
  rewrite FILES_TEST_5AFC_product. intros H.
  apply In_product_filenames in H
    as (emo & sex & utt & cond & He & Hs & Hu & Hc & ->).
  apply condition_is_reverb in Hc as (r & Hr & ->).
  exists (mkParts emo sex utt r). split; [|now repeat split].
  apply (parse_complete (mkParts emo sex utt r)).
  unfold well_formed; cbn [emotion speaker utterance reverb].
  split; [|split; [|split]].
  - unfold emotions in He. simpl in *. tauto.
  - exact Hs.
  - exact (numeric_utterances _ Hu).
  - destruct Hr as [<-|[<-|[<-|[]]]]; simpl; tauto.
Qed.



(** ** Relations between the collections *)

(** C9. The names held by the 4 discrimination pairs and the 8 base names
    of the dry-versus-reverb targets are the same 8 distinct names. *)
Theorem pairs_and_targets_same_clips :
  same_elements PAIR_FILES BASES_DRY_RVB /\
  List.length BASES_DRY_RVB = 8 /\ NoDup BASES_DRY_RVB /\
  List.length PAIR_FILES = 8 /\ NoDup PAIR_FILES.
Proof.
  split; [intros f; vm_compute; tauto|].
  split; [reflexivity|]. split; [|split; [reflexivity|]].
  - assert (E : nodup string_dec BASES_DRY_RVB = BASES_DRY_RVB)
      by (vm_compute; reflexivity).
    rewrite <- E. apply NoDup_nodup.
  - assert (E : nodup string_dec PAIR_FILES = PAIR_FILES)
      by (vm_compute; reflexivity).
    rewrite <- E. apply NoDup_nodup.
Qed.

(** C10. No name is both a practice name and a generated test name: every
    practice name encodes utterance id 137, every test name 820 or 545. *)
Theorem practice_and_test_disjoint :
  Forall (fun f => utterance_of f = Some "137") FILES_PRACTICE_5AFC /\
  Forall (fun f => utterance_of f = Some "820" \/ utterance_of f = Some "545")
         FILES_TEST_5AFC /\
  (forall f : string, ~ (In f FILES_PRACTICE_5AFC /\ In f FILES_TEST_5AFC)).
Proof.
  assert (Hp : Forall (fun f => utterance_of f = Some "137") FILES_PRACTICE_5AFC)
    by (repeat constructor).
  assert (Ht : Forall (fun f => utterance_of f = Some "820" \/ utterance_of f = Some "545")
                      FILES_TEST_5AFC).
  { apply Forall_forall. intros f Hf.
    destruct (test_file_reads _ Hf) as (p & Hparse & _ & _ & Hu & _).
    unfold utterance_of. rewrite Hparse. simpl.
    destruct Hu as [<-|[<-|[]]]; tauto. }
  split; [exact Hp|]. split; [exact Ht|].
  intros f [Hin1 Hin2].
  pose proof (proj1 (Forall_forall _ _) Hp f Hin1) as H1.
  pose proof (proj1 (Forall_forall _ _) Ht f Hin2) as H2.
  cbv beta in H1, H2. rewrite H1 in H2. destruct H2; discriminate.
Qed.

(** * The loops on any input lists and any array *)

(** X1. What the loops push does not depend on what the array already
    holds: on an array [FILES] they leave [FILES] in place and put after
    it the very names they push onto an empty array. *)
Theorem loops_effect_independent_of_array (emos sxs utts conds FILES : list string) :
  generate emos sxs utts conds FILES = FILES ++ generate emos sxs utts conds [].
Proof. now rewrite (generate_appends _ _ _ _ FILES), (generate_appends _ _ _ _ []). Qed.

(** X2. The loops push one name per tuple: the array grows by the product
    of the lengths of the four input lists. *)
Theorem loops_push_count (emos sxs utts conds FILES : list string) :
  List.length (generate emos sxs utts conds FILES)
  = List.length FILES
    + List.length emos * List.length sxs * List.length utts * List.length conds.
Proof. now rewrite generate_appends, length_app, length_product_filenames. Qed.

Lemma product_filenames_nil (emos sxs utts conds : list string) :
  List.length emos * List.length sxs * List.length utts * List.length conds = 0 ->
  product_filenames emos sxs utts conds = [].
Proof.
  intros H. apply length_zero_iff_nil. now rewrite length_product_filenames.
Qed.

(** X3. As soon as one of the four input lists is empty the innermost
    callback never runs: the array is left as it was. *)
Theorem loops_on_empty_input (emos sxs utts conds FILES : list string) :
  generate [] sxs utts conds FILES = FILES /\
  generate emos [] utts conds FILES = FILES /\
  generate emos sxs [] conds FILES = FILES /\
  generate emos sxs utts [] FILES = FILES.
Proof.
  repeat split; rewrite generate_appends, product_filenames_nil;
    try apply app_nil_r; simpl; nia.
Qed.

(** X4. On any input lists and any array, the name of the tuple with
    indices [e], [s], [u], [c] lands behind the earlier contents at
    offset [((e*|sexes| + s)*|utterances| + u)*|conditions| + c]. *)
Theorem loops_index_law (emos sxs utts conds FILES : list string)
    (e s u c : nat) (emo sex utt cond : string) :
  nth_error emos e = Some emo ->
  nth_error sxs s = Some sex ->
  nth_error utts u = Some utt ->
  nth_error conds c = Some cond ->
  nth_error (generate emos sxs utts conds FILES)
    (List.length FILES
     + (((e * List.length sxs + s) * List.length utts + u) * List.length conds + c))
  = Some (filename emo sex utt cond).
Proof.
  intros He Hs Hu Hc. rewrite generate_appends.
  rewrite nth_error_app2 by lia.
  replace (List.length FILES
           + (((e * List.length sxs + s) * List.length utts + u) * List.length conds + c)
           - List.length FILES)
    with (((e * List.length sxs + s) * List.length utts + u) * List.length conds + c)
    by lia.
  now apply nth_error_product_filenames.
Qed.

Lemma loops_index_law_witness :
  nth_error (generate ["rel"; "sad"] ["M"] ["137"; "545"; "820"] [""; "_rvb"] ["kept.wav"])
    (1 + (((1 * 1 + 0) * 3 + 2) * 2 + 1))
  = Some (filename "sad" "M" "820" "_rvb").
Proof.
  apply (loops_index_law ["rel"; "sad"] ["M"] ["137"; "545"; "820"] [""; "_rvb"]
           ["kept.wav"] 1 0 2 1 "sad" "M" "820" "_rvb"); reflexivity.
Defined.

(** X5. Cutting the emotion list in two and running the loops on the
    first part, then on the second, on the same array, is the same as
    one run on the whole list. *)
Theorem loops_split_outer (emos1 emos2 sxs utts conds FILES : list string) :
  generate (emos1 ++ emos2) sxs utts conds FILES
  = generate emos2 sxs utts conds (generate emos1 sxs utts conds FILES).
Proof.
  rewrite !generate_appends. unfold product_filenames.
  now rewrite flat_map_app, app_assoc.
Qed.

(** * The template on the vocabulary of the convention *)

(** A name built from values of the convention is read back as those
    values. *)
Lemma filename_reads (e x u : string) (r : option string) :
  In e EMOTION_LABELS -> In x SEX_LABELS -> numeric u -> valid_reverb r ->
  parse (filename e x u (cond_of r)) = Some (mkParts e x u r).
Proof.
  intros He Hx Hu Hr.
  apply (parse_complete (mkParts e x u r)).
  split; [|split; [|split]]; assumption.
Qed.

Lemma cond_of_inj (r r' : option string) : cond_of r = cond_of r' -> r = r'.
Proof.
  destruct r, r'; simpl; intros H; try discriminate; [|reflexivity].
  now injection H as ->.
Qed.

Lemma filename_inj_ok (e x u c e' x' u' c' : string) :
  In e EMOTION_LABELS -> In x SEX_LABELS -> numeric u -> condition_ok c ->
  In e' EMOTION_LABELS -> In x' SEX_LABELS -> numeric u' -> condition_ok c' ->
  filename e x u c = filename e' x' u' c' ->
  e = e' /\ x = x' /\ u = u' /\ c = c'.
Proof.
  intros He Hx Hu (r & Hr & ->) He' Hx' Hu' (r' & Hr' & ->) E.
  pose proof (filename_reads _ _ _ _ He Hx Hu Hr) as P.
  rewrite E, (filename_reads _ _ _ _ He' Hx' Hu' Hr') in P.
  now injection P as -> -> -> ->.
Qed.

(** X6. Two different tuples of an emotion label, a sex, a numeric
    utterance id and a condition never get the same name from the
    template. *)
Theorem template_separates_tuples (e x u c e' x' u' c' : string) :
  In e EMOTION_LABELS -> In x SEX_LABELS -> numeric u -> condition_ok c ->
  In e' EMOTION_LABELS -> In x' SEX_LABELS -> numeric u' -> condition_ok c' ->
  (e, x, u, c) <> (e', x', u', c') ->
  filename e x u c <> filename e' x' u' c'.
Proof.
  intros He Hx Hu Hc He' Hx' Hu' Hc' Hne E. apply Hne.
  destruct (filename_inj_ok _ _ _ _ _ _ _ _ He Hx Hu Hc He' Hx' Hu' Hc' E)
    as (-> & -> & -> & ->).
  reflexivity.
Qed.

Lemma numeric_137 : numeric "137".
Proof. split; [discriminate | reflexivity]. Qed.

Lemma numeric_1370 : numeric "1370".
Proof. split; [discriminate | reflexivity]. Qed.

Lemma condition_ok_dry : condition_ok "".
Proof. exists None. now split. Qed.

Lemma condition_ok_rvb1 : condition_ok "_rvb1".
Proof. exists (Some "rvb1"). split; [simpl; tauto | reflexivity]. Qed.

Lemma condition_ok_rvb2 : condition_ok "_rvb2".
Proof. exists (Some "rvb2"). split; [simpl; tauto | reflexivity]. Qed.

Lemma template_separates_tuples_witness :
  filename "sad" "F" "137" "" <> filename "sad" "F" "1370" "".
Proof.
  apply template_separates_tuples;
    try (simpl; tauto);
    try exact numeric_137; try exact numeric_1370; try exact condition_ok_dry.
  discriminate.
Defined.

(** ** Distinct names from distinct inputs *)

Lemma NoDup_flat_map_apart {A B : Type} (f : A -> list B) (l : list A) :
  NoDup l ->
  (forall x, In x l -> NoDup (f x)) ->
  (forall x y b, In x l -> In y l -> In b (f x) -> In b (f y) -> x = y) ->
  NoDup (flat_map f l).
Proof.
  intros Hl. induction Hl as [|x l Hx Hl IH]; intros Hblock Hapart; simpl.
  - constructor.
  - apply NoDup_app.
    + apply Hblock. now left.
    + apply IH.
      * intros y Hy. apply Hblock. now right.
      * intros y z b Hy Hz. apply Hapart; now right.
    + intros b Hb Hb'. apply in_flat_map in Hb' as (y & Hy & Hb').
      assert (x = y) by (apply (Hapart x y b); simpl; auto).
      subst. contradiction.
Qed.

(** X7. Given lists without repetition that stay within the convention
    (emotion labels, sexes, numeric utterance ids, condition strings),
    the loops started on an empty array push no name twice. *)
Theorem generated_names_distinct (emos sxs utts conds : list string) :
  inputs_ok emos sxs utts conds ->
  NoDup emos -> NoDup sxs -> NoDup utts -> NoDup conds ->
  NoDup (generate emos sxs utts conds []).
Proof.
  intros (He & Hs & Hu & Hc) Ne Ns Nu Nc.
  rewrite Forall_forall in Hu, Hc.
  rewrite generate_appends. simpl. unfold product_filenames.
  apply NoDup_flat_map_apart; [assumption | |].
  - intros emo Hemo. apply NoDup_flat_map_apart; [assumption | |].
    + intros sex Hsex. apply NoDup_flat_map_apart; [assumption | |].
      * intros utt Hutt. apply NoDup_map_NoDup_ForallPairs; [|assumption].
        intros c c' Hin Hin' E.
        now destruct (filename_inj_ok _ _ _ _ _ _ _ _
                        (He _ Hemo) (Hs _ Hsex) (Hu _ Hutt) (Hc _ Hin)
                        (He _ Hemo) (Hs _ Hsex) (Hu _ Hutt) (Hc _ Hin') E)
          as (_ & _ & _ & ?).
      * intros u u' b Hin Hin' Hb Hb'.
        apply in_map_iff in Hb as (c & <- & Hcin).
        apply in_map_iff in Hb' as (c' & E & Hcin').
        now destruct (filename_inj_ok _ _ _ _ _ _ _ _
                        (He _ Hemo) (Hs _ Hsex) (Hu _ Hin') (Hc _ Hcin')
                        (He _ Hemo) (Hs _ Hsex) (Hu _ Hin) (Hc _ Hcin) E)
          as (_ & _ & ? & _).
    + intros x x' b Hin Hin' Hb Hb'.
      apply in_flat_map in Hb as (u & Huin & Hb).
      apply in_map_iff in Hb as (c & <- & Hcin).
      apply in_flat_map in Hb' as (u' & Huin' & Hb').
      apply in_map_iff in Hb' as (c' & E & Hcin').
      now destruct (filename_inj_ok _ _ _ _ _ _ _ _
                      (He _ Hemo) (Hs _ Hin') (Hu _ Huin') (Hc _ Hcin')
                      (He _ Hemo) (Hs _ Hin) (Hu _ Huin) (Hc _ Hcin) E)
        as (_ & ? & _ & _).
  - intros e e' b Hin Hin' Hb Hb'.
    apply in_flat_map in Hb as (x & Hxin & Hb).
    apply in_flat_map in Hb as (u & Huin & Hb).
    apply in_map_iff in Hb as (c & <- & Hcin).
    apply in_flat_map in Hb' as (x' & Hxin' & Hb').
    apply in_flat_map in Hb' as (u' & Huin' & Hb').
    apply in_map_iff in Hb' as (c' & E & Hcin').
    now destruct (filename_inj_ok _ _ _ _ _ _ _ _
                    (He _ Hin') (Hs _ Hxin') (Hu _ Huin') (Hc _ Hcin')
                    (He _ Hin) (Hs _ Hxin) (Hu _ Huin) (Hc _ Hcin) E)
      as (? & _ & _ & _).
Qed.

Lemma source_lists_ok (utts : list string) :
  Forall numeric utts -> inputs_ok emotions sexes utts conditions.
Proof.
  intros Hu. split; [|split; [|split]]; try assumption.
  - intros x H. simpl in *. tauto.
  - intros x H. exact H.
  - apply Forall_cons; [exact condition_ok_dry|].
    apply Forall_cons; [exact condition_ok_rvb1|].
    apply Forall_cons; [exact condition_ok_rvb2 | apply Forall_nil].
Qed.

Lemma NoDup_source_lists : NoDup emotions /\ NoDup sexes /\ NoDup conditions.
Proof.
  repeat split; repeat constructor; simpl; intuition discriminate.
Qed.

Lemma numeric_137_545 : Forall numeric ["137"; "545"].
Proof.
  apply Forall_cons; [exact numeric_137|].
  apply Forall_cons; [|apply Forall_nil].
  split; [discriminate | reflexivity].
Qed.

Lemma generated_names_distinct_witness :
  NoDup (generate emotions sexes ["137"; "545"] conditions []).
Proof.
  apply generated_names_distinct.
  - exact (source_lists_ok _ numeric_137_545).
  - exact (proj1 NoDup_source_lists).
  - exact (proj1 (proj2 NoDup_source_lists)).
  - repeat constructor; simpl; intuition discriminate.
  - exact (proj2 (proj2 NoDup_source_lists)).
Defined.



(** * Practice names against generated names, by utterance id *)

Lemma string_length_append (s1 s2 : string) :
  String.length (s1 ++ s2)%string = String.length s1 + String.length s2.
Proof. induction s1 as [|c s1 IH]; simpl; congruence. Qed.

Lemma append_cancel_r (s u v : string) :
  (u ++ s)%string = (v ++ s)%string -> u = v.
Proof.
  revert v. induction u as [|c u IH]; intros [|d v] H; simpl in H.
  - reflexivity.
  - apply (f_equal String.length) in H. simpl in H.
    rewrite string_length_append in H. lia.
  - apply (f_equal String.length) in H. simpl in H.
    rewrite string_length_append in H. lia.
  - injection H as -> H. f_equal. now apply IH.
Qed.

(** A generated name that is also a practice name was built from
    utterance id 137 and the dry condition, whatever the utterance id
    was meant to be. *)
Lemma practice_name_built_from_137 (emo sex utt cond f : string) :
  In emo emotions -> In sex sexes -> In cond conditions ->
  In f FILES_PRACTICE_5AFC ->
  filename emo sex utt cond = f -> utt = "137" /\ cond = "".
Proof.
  intros He Hs Hc Hf E.
  assert (He' : In emo EMOTION_LABELS) by (simpl in *; tauto).
  apply (f_equal split_at_underscore) in E. unfold filename in E.
  rewrite (split_at_underscore_label _ _ He') in E.
  assert (T : (utt ++ cond ++ ".wav")%string = "137.wav").
  { destruct Hs as [<-|[<-|[]]];
      repeat (destruct Hf as [<-|Hf];
              [vm_compute in E; injection E as _ E; first [exact E | discriminate]|]);
      destruct Hf. }
  destruct Hc as [<-|[<-|[<-|[]]]]; simpl in T.
  - split; [|reflexivity]. exact (append_cancel_r ".wav" utt "137" T).
  - apply (f_equal String.length) in T.
    rewrite string_length_append in T. simpl in T. lia.
  - apply (f_equal String.length) in T.
    rewrite string_length_append in T. simpl in T. lia.
Qed.

(** X9. Whatever utterance ids the loops are given, as long as 137 is not
    among them no practice name is pushed onto the test list. *)
Theorem practice_apart_without_137 (utts : list string) (f : string) :
  ~ In "137" utts ->
  ~ (In f FILES_PRACTICE_5AFC /\ In f (generate emotions sexes utts conditions [])).
Proof.
  intros Hno [Hp Hg]. rewrite generate_appends, app_nil_l in Hg.
  apply In_product_filenames in Hg
    as (emo & sex & utt & cond & He & Hs & Hu & Hc & E).
  destruct (practice_name_built_from_137 emo sex utt cond f He Hs Hc Hp (eq_sym E))
    as [-> _].
  contradiction.
Qed.

Lemma practice_apart_without_137_witness :
  ~ In "137" ["820"; "545"] /\
  ~ (In "sad_F137.wav" FILES_PRACTICE_5AFC /\
     In "sad_F137.wav" (generate emotions sexes ["820"; "545"] conditions [])).
Proof.
  assert (H : ~ In "137" ["820"; "545"]) by (simpl; intuition discriminate).
  split; [exact H | exact (practice_apart_without_137 ["820"; "545"] "sad_F137.wav" H)].
Defined.

(** The practice list is the dry name of every emotion and sex of the
    loops at utterance id 137. *)
Lemma practice_names_as_built :
  FILES_PRACTICE_5AFC
  = map (fun es => filename (fst es) (snd es) "137" "") (list_prod emotions sexes).
Proof. reflexivity. Qed.

(** X10. With 137 among the utterance ids, as the comment above the
    loops assumes, every practice name is pushed onto the test list. *)
Theorem practice_generated_with_137 (utts : list string) :
  In "137" utts ->
  incl FILES_PRACTICE_5AFC (generate emotions sexes utts conditions []).
Proof.
  intros H f Hf. rewrite generate_appends, app_nil_l.
  rewrite practice_names_as_built in Hf.
  apply in_map_iff in Hf as ([emo sex] & <- & Hes).
  apply in_prod_iff in Hes as [He Hs].
  apply In_product_filenames. exists emo, sex, "137", "".
  repeat split; try assumption. now left.
Qed.

Lemma practice_generated_with_137_witness :
  incl FILES_PRACTICE_5AFC (generate emotions sexes ["137"; "545"] conditions []).
Proof. apply practice_generated_with_137. now left. Defined.
